(** * SECOM MES Quality API client: a shallow embedding of
      [src/quality/quality_api.py]

    The module is a flat set of [async def] functions.  Each one binds its
    arguments, builds one request, hands it to [httpx] and returns the
    decoded JSON body; three helpers compose the primitive calls.

    The embedding follows the Python text function by function:
    - Python objects are the type [value]; a [dict] is a [gmap string value];
    - a call binds positional and keyword arguments against the callee's
      signature and raises [TypeError] when they do not fit, as CPython does;
    - the network and the process clock are the [world]; the requests handed
      to [httpx] are logged in order, so that "no request was issued" and
      "exactly this request was issued" are statements about the log;
    - exceptions are the [Raise] outcome of the monad [Py].

    Python floats are modelled by exact rationals ([Q]): the development
    never relies on rounding, and NaN or infinities are outside the model. *)

From Stdlib Require Import QArith.
From stdpp Require Import gmap strings list fin_maps pretty.

Local Open Scope Z_scope.

(** ** Python objects *)

#[warnings="-register-all"]
Inductive value : Type :=
| VNone
| VBool (b : bool)
| VInt (n : Z)
| VFloat (q : Q)
| VStr (s : string)
| VList (l : list value)
| VDict (d : gmap string value).

Global Instance value_inhabited : Inhabited value := populate VNone.

(** [x is not None] *)
Definition is_not_None (v : value) : bool :=
  match v with VNone => false | _ => true end.

(** Truth value of an object, as [if x] and [x or y] test it. *)
Definition truthy (v : value) : bool :=
  match v with
  | VNone => false
  | VBool b => b
  | VInt n => negb (n =? 0)
  | VFloat q => negb (Qeq_bool q 0)
  | VStr s => negb (String.eqb s EmptyString)
  | VList l => match l with [] => false | _ => true end
  | VDict d => negb (bool_decide (d = ∅))
  end.

(** [x or y] *)
Definition py_or (x y : value) : value := if truthy x then x else y.

(** The numeric tower: [bool] is a subclass of [int], [int] mixes with
    [float]. *)
Inductive number := NInt (n : Z) | NFloat (q : Q).

Definition as_number (v : value) : option number :=
  match v with
  | VBool b => Some (NInt (if b then 1 else 0))
  | VInt n => Some (NInt n)
  | VFloat q => Some (NFloat q)
  | _ => None
  end.

Definition to_Q (n : number) : Q :=
  match n with NInt z => inject_Z z | NFloat q => q end.

(** ** HTTP objects and exceptions *)

(** What [httpx.AsyncClient.request] receives.  The fields hold the Python
    objects passed, untouched: the client code validates none of them. *)
Record request := Request {
  req_method : value;
  req_url : string;
  req_json : value;
  req_params : value;
  req_headers : gmap string string;
  req_timeout : value
}.

(** An [httpx.Response]: the status, the raw body, and what
    [Response.json()] gives on that body ([None] when it is not JSON). *)
Record response := Response {
  status_code : Z;
  content : string;
  json_body : option value
}.

(** The [httpx.RequestError] family (connection and timeout failures). *)
Inductive fault := ConnectError | ConnectTimeout | ReadTimeout | ReadError.

Inductive exn :=
| TypeError
| AttributeError
| ZeroDivisionError
| JSONDecodeError
| HTTPStatusError (r : response)
| RequestError (k : fault).

(** [isinstance(e, httpx.HTTPError)]: the status error and the request
    errors derive from it, the built-in exceptions do not. *)
Definition is_HTTPError (e : exn) : bool :=
  match e with
  | HTTPStatusError _ | RequestError _ => true
  | _ => false
  end.

(** [httpx.Response.is_success]: the 2xx class. *)
Definition is_success (r : response) : bool :=
  (200 <=? status_code r) && (status_code r <=? 299).

(** ** The world and the monad of client code *)

Inductive outcome := Responded (r : response) | Failed (k : fault).

(** The server answers a request knowing the requests made before it; the
    clock reading is the ISO 8601 text of [datetime.now()] at that point. *)
Record world := World {
  server : list request -> request -> outcome;
  clock : list request -> string;
  repr : value -> string
}.

Inductive result (A : Type) :=
| Return (a : A)
| Raise (e : exn).
Arguments Return {A} a.
Arguments Raise {A} e.

(** A computation reads the world, extends the log of requests and either
    returns or raises. *)
Definition Py (A : Type) : Type :=
  world -> list request -> result A * list request.

Global Instance Py_ret : MRet Py := fun A a _ log => (Return a, log).

Global Instance Py_bind : MBind Py := fun A B f m w log =>
  match m w log with
  | (Return a, log') => f a w log'
  | (Raise e, log') => (Raise e, log')
  end.

Definition raise {A} (e : exn) : Py A := fun _ log => (Raise e, log).

(** [try: m  except ...: h e] *)
Definition try_except {A} (m : Py A) (h : exn -> Py A) : Py A :=
  fun w log =>
    match m w log with
    | (Return a, log') => (Return a, log')
    | (Raise e, log') => h e w log'
    end.

(** One round trip through [httpx]: the request is logged, then the world
    decides. *)
Definition send (rq : request) : Py response := fun w log =>
  match server w log rq with
  | Responded r => (Return r, log ++ [rq])
  | Failed k => (Raise (RequestError k), log ++ [rq])
  end.

Definition now_isoformat : Py value := fun w log =>
  (Return (VStr (clock w log)), log).

(** A whole call, from an empty log. *)
Definition run {A} (m : Py A) (w : world) : result A * list request :=
  m w [].

(** ** Formatting inside f-strings *)

(** The text an f-string field gives for the objects whose text is fixed by the language;
    floats and containers are rendered by the runtime ([repr] of the world). *)
Definition format_value (w : world) (v : value) : string :=
  match v with
  | VNone => "None"
  | VBool true => "True"
  | VBool false => "False"
  | VInt n => pretty n
  | VStr s => s
  | _ => repr w v
  end.

(** ** Calls: binding arguments to a signature *)

Record param := Param { p_name : string; p_default : option value }.

Definition required (x : string) : param := Param x None.
Definition optional (x : string) (d : value) : param := Param x (Some d).

Abbreviation locals := (gmap string value) (only parsing).

(** Positional arguments fill the parameters from the left; one argument
    too many is an error. *)
Fixpoint bind_positional (sig : list param) (args : list value)
    (env : locals) : option locals :=
  match args, sig with
  | [], _ => Some env
  | a :: args', p :: sig' => bind_positional sig' args' (<[p_name p := a]> env)
  | _ :: _, [] => None
  end.

(** A keyword must name a parameter that no argument has filled yet. *)
Fixpoint bind_keywords (sig : list param) (kwargs : list (string * value))
    (env : locals) : option locals :=
  match kwargs with
  | [] => Some env
  | (k, v) :: rest =>
      if bool_decide (k ∈ p_name <$> sig) then
        match env !! k with
        | Some _ => None
        | None => bind_keywords sig rest (<[k := v]> env)
        end
      else None
  end.

(** Parameters left unfilled take their default; one without a default is
    a missing argument. *)
Fixpoint fill_defaults (sig : list param) (env : locals) : option locals :=
  match sig with
  | [] => Some env
  | p :: sig' =>
      match env !! p_name p with
      | Some _ => fill_defaults sig' env
      | None =>
          match p_default p with
          | Some d => fill_defaults sig' (<[p_name p := d]> env)
          | None => None
          end
      end
  end.

Definition bind_arguments (sig : list param) (args : list value)
    (kwargs : list (string * value)) : option locals :=
  env ← bind_positional sig args ∅;
  env ← bind_keywords sig kwargs env;
  fill_defaults sig env.

(** [def f(sig): body], called with positional and keyword arguments.
    Every failure of the binding is a [TypeError], raised before the body
    starts. *)
Definition def {A} (sig : list param) (body : locals -> Py A)
    (args : list value) (kwargs : list (string * value)) : Py A :=
  match bind_arguments sig args kwargs with
  | Some env => body env
  | None => raise TypeError
  end.

(** Reading a local variable. *)
Definition var (env : locals) (x : string) : value := env !!! x.

(** ** Operations on objects used by the module *)

(** An f-string field. *)
Definition format (v : value) : Py string := fun w log =>
  (Return (format_value w v), log).

(** [obj.get(key, dflt)]: only a [dict] has the method. *)
Definition py_get (obj : value) (key : string) (dflt : value) : Py value :=
  match obj with
  | VDict d => mret (default dflt (d !! key))
  | _ => raise AttributeError
  end.

(** [v == z] against an integer literal. *)
Definition py_eq_int (v : value) (z : Z) : bool :=
  match as_number v with
  | Some n => Qeq_bool (to_Q n) (inject_Z z)
  | None => false
  end.

Definition Qgt_bool (a b : Q) : bool := negb (Qle_bool a b).

(** [v > q] against a numeric literal: ordering a non-number against a
    number is a [TypeError]. *)
Definition py_gt (v : value) (q : Q) : Py bool :=
  match as_number v with
  | Some n => mret (Qgt_bool (to_Q n) q)
  | None => raise TypeError
  end.

(** [a + b] where [a] is the running total of [sum], hence a number. *)
Definition py_add (a b : value) : Py value :=
  match as_number a, as_number b with
  | Some (NInt x), Some (NInt y) => mret (VInt (x + y))
  | Some x, Some y => mret (VFloat (Qred (to_Q x + to_Q y)))
  | _, _ => raise TypeError
  end.

(** [a / b], true division. *)
Definition py_truediv (a b : value) : Py value :=
  match as_number a, as_number b with
  | Some x, Some y =>
      if Qeq_bool (to_Q y) 0 then raise ZeroDivisionError
      else mret (VFloat (Qred (to_Q x / to_Q y)))
  | _, _ => raise TypeError
  end.

(** [a * b] where [a] is the quotient of a true division, hence a float. *)
Definition py_mul (a b : value) : Py value :=
  match as_number a, as_number b with
  | Some (NInt x), Some (NInt y) => mret (VInt (x * y))
  | Some x, Some y => mret (VFloat (Qred (to_Q x * to_Q y)))
  | _, _ => raise TypeError
  end.

(** [len(v)] *)
Definition py_len (v : value) : Py value :=
  match v with
  | VList l => mret (VInt (Z.of_nat (length l)))
  | VDict d => mret (VInt (Z.of_nat (size d)))
  | VStr s => mret (VInt (Z.of_nat (String.length s)))
  | _ => raise TypeError
  end.

(** [iter(v)]: the elements of a list, the keys of a dict, the characters
    of a string. *)
Definition py_iter (v : value) : Py (list value) :=
  match v with
  | VList l => mret l
  | VDict d => mret (VStr <$> (map_to_list d).*1)
  | VStr s =>
      mret ((fun c => VStr (String c EmptyString))
              <$> String.list_ascii_of_string s)
  | _ => raise TypeError
  end.

(** [response.json()] *)
Definition json (r : response) : Py value :=
  match json_body r with
  | Some v => mret v
  | None => raise JSONDecodeError
  end.

(** [response.raise_for_status()] *)
Definition raise_for_status (r : response) : Py unit :=
  if is_success r then mret tt else raise (HTTPStatusError r).

(** ** Configuration *)

Definition DEFAULT_BASE_URL : string := "http://localhost:8080/api/v1".

(** ** Helper functions *)

(** The [headers] argument of every request (line 171). *)
Definition json_headers : gmap string string :=
  <["Accept" := "application/json"]>
    (<["Content-Type" := "application/json"]> ∅).

(** [_make_request] (lines 138-174): method and endpoint are required, the
    base URL, the JSON body, the query parameters and the timeout have
    defaults. *)
Definition _make_request_sig : list param :=
  [ required "method"; required "endpoint";
    optional "base_url" (VStr DEFAULT_BASE_URL);
    optional "json_data" VNone; optional "params" VNone;
    optional "timeout" (VInt 30) ].

Definition _make_request_body (env : locals) : Py response :=
  base ← format (var env "base_url");
  path ← format (var env "endpoint");
  let url := base +:+ path in
  response ← send {| req_method := var env "method";
                     req_url := url;
                     req_json := var env "json_data";
                     req_params := var env "params";
                     req_headers := json_headers;
                     req_timeout := var env "timeout" |};
  _ ← raise_for_status response;
  mret response.

Definition _make_request : list value -> list (string * value) -> Py response :=
  def _make_request_sig _make_request_body.

(** ** Quality API functions *)

(** In each function below, [base_url: str = DEFAULT_BASE_URL] is the first
    statement of the body, an annotated assignment to a local variable; the
    parameter list does not mention it. *)

(** [get_result_by_id] (lines 181-309). *)
Definition get_result_by_id_sig : list param := [ required "result_id" ].

Definition get_result_by_id_body (env : locals) : Py value :=
  let base_url := VStr DEFAULT_BASE_URL in
  rid ← format (var env "result_id");
  response ← _make_request [VStr "GET"; VStr ("/quality/results/" +:+ rid)]
                           [("base_url", base_url)];
  json response.

Definition get_result_by_id : list value -> list (string * value) -> Py value :=
  def get_result_by_id_sig get_result_by_id_body.

(** The query-parameter mapping of the three paginated endpoints:
    [params = {}], the two conditional stores, then
    [params if params else None]. *)
Definition pagination_params (page size : value) : value :=
  let params : gmap string value := ∅ in
  let params := if is_not_None page then <["page" := page]> params else params in
  let params := if is_not_None size then <["size" := size]> params else params in
  if truthy (VDict params) then VDict params else VNone.

(** The signature shared by [get_all_results], [get_passed_results] and
    [get_failed_results]. *)
Definition paginated_sig : list param :=
  [ optional "page" VNone; optional "size" VNone ].

(** [get_all_results] (lines 312-493); it names [DEFAULT_BASE_URL] in the
    call and has no local [base_url]. *)
Definition get_all_results_body (env : locals) : Py value :=
  let params := pagination_params (var env "page") (var env "size") in
  response ← _make_request [VStr "GET"; VStr "/quality/results"]
                           [("base_url", VStr DEFAULT_BASE_URL); ("params", params)];
  json response.

Definition get_all_results : list value -> list (string * value) -> Py value :=
  def paginated_sig get_all_results_body.

(** [get_passed_results] (lines 496-602). *)
Definition get_passed_results_body (env : locals) : Py value :=
  let base_url := VStr DEFAULT_BASE_URL in
  let params := pagination_params (var env "page") (var env "size") in
  response ← _make_request [VStr "GET"; VStr "/quality/results/passed"]
                           [("base_url", base_url); ("params", params)];
  json response.

Definition get_passed_results : list value -> list (string * value) -> Py value :=
  def paginated_sig get_passed_results_body.

(** [get_result_by_lot_id] (lines 605-734). *)
Definition get_result_by_lot_id_sig : list param := [ required "lot_id" ].

Definition get_result_by_lot_id_body (env : locals) : Py value :=
  let base_url := VStr DEFAULT_BASE_URL in
  lid ← format (var env "lot_id");
  response ← _make_request [VStr "GET"; VStr ("/quality/results/lot/" +:+ lid)]
                           [("base_url", base_url)];
  json response.

Definition get_result_by_lot_id : list value -> list (string * value) -> Py value :=
  def get_result_by_lot_id_sig get_result_by_lot_id_body.

(** [get_high_risk_results] (lines 737-871). *)
Definition get_high_risk_results_sig : list param :=
  [ optional "threshold" (VFloat 0.7) ].

Definition get_high_risk_results_body (env : locals) : Py value :=
  let base_url := VStr DEFAULT_BASE_URL in
  let params := VDict (<["threshold" := var env "threshold"]> ∅) in
  response ← _make_request [VStr "GET"; VStr "/quality/results/high-risk"]
                           [("base_url", base_url); ("params", params)];
  json response.

Definition get_high_risk_results : list value -> list (string * value) -> Py value :=
  def get_high_risk_results_sig get_high_risk_results_body.

(** [get_failed_results] (lines 874-980). *)
Definition get_failed_results_body (env : locals) : Py value :=
  let base_url := VStr DEFAULT_BASE_URL in
  let params := pagination_params (var env "page") (var env "size") in
  response ← _make_request [VStr "GET"; VStr "/quality/results/failed"]
                           [("base_url", base_url); ("params", params)];
  json response.

Definition get_failed_results : list value -> list (string * value) -> Py value :=
  def paginated_sig get_failed_results_body.

(** [get_results_by_defect_type] (lines 983-1115). *)
Definition get_results_by_defect_type_sig : list param :=
  [ required "defect_type" ].

Definition get_results_by_defect_type_body (env : locals) : Py value :=
  let base_url := VStr DEFAULT_BASE_URL in
  dt ← format (var env "defect_type");
  response ← _make_request [VStr "GET"; VStr ("/quality/results/defect/" +:+ dt)]
                           [("base_url", base_url)];
  json response.

Definition get_results_by_defect_type :
    list value -> list (string * value) -> Py value :=
  def get_results_by_defect_type_sig get_results_by_defect_type_body.

(** ** Utility functions *)

(** [get_quality_summary] (lines 1122-1204). *)
Definition get_quality_summary_sig : list param := [ required "result_id" ].

(** The statements after the fetch: the derived flags and the time stamp. *)
Definition summary_of (result : value) : Py value :=
  classification ← py_get result "classification" VNone;
  let is_passed := py_eq_int classification (-1) in
  predictedRisk ← py_get result "predictedRisk" (VInt 0);
  is_high_risk ← py_gt predictedRisk 0.7;
  defectType ← py_get result "defectType" VNone;
  let has_defects := is_not_None defectType in
  stamp ← now_isoformat;
  mret (VDict (<["summary_generated_at" := stamp]>
              (<["has_defects" := VBool has_defects]>
              (<["is_high_risk" := VBool is_high_risk]>
              (<["is_passed" := VBool is_passed]>
              (<["result" := result]> ∅)))))).

Definition get_quality_summary_body (env : locals) : Py value :=
  let base_url := VStr DEFAULT_BASE_URL in
  result ← get_result_by_id [var env "result_id"; base_url] [];
  summary_of result.

Definition get_quality_summary : list value -> list (string * value) -> Py value :=
  def get_quality_summary_sig get_quality_summary_body.

(** [sum(r.get("qualityScore", 0) or 0 for r in content)], element by
    element from the running total. *)
Fixpoint sum_scores (content : list value) (acc : value) : Py value :=
  match content with
  | [] => mret acc
  | r :: rest =>
      score ← py_get r "qualityScore" (VInt 0);
      acc' ← py_add acc (py_or score (VInt 0));
      sum_scores rest acc'
  end.

(** [sum(...) / len(content) if content else 0] *)
Definition average_quality_score (content : value) : Py value :=
  if truthy content then
    items ← py_iter content;
    total ← sum_scores items (VInt 0);
    n ← py_len content;
    py_truediv total n
  else mret (VInt 0).

(** [(passed_count / total * 100) if total > 0 else 0] *)
Definition pass_rate (passed_count total : value) : Py value :=
  positive ← py_gt total 0;
  if positive : bool then
    ratio ← py_truediv passed_count total;
    py_mul ratio (VInt 100)
  else mret (VInt 0).

(** The statements after the four fetches. *)
Definition statistics_of (all_results_page passed_results_page
    failed_results_page high_risk_results : value) : Py value :=
  total ← py_get all_results_page "totalElements" (VInt 0);
  passed_count ← py_get passed_results_page "totalElements" (VInt 0);
  failed_count ← py_get failed_results_page "totalElements" (VInt 0);
  content ← py_get all_results_page "content" (VList []);
  avg_quality_score ← average_quality_score content;
  high_risk_count ← py_len high_risk_results;
  rate ← pass_rate passed_count total;
  stamp ← now_isoformat;
  mret (VDict (<["statistics_generated_at" := stamp]>
              (<["average_quality_score" := avg_quality_score]>
              (<["pass_rate" := rate]>
              (<["high_risk_count" := high_risk_count]>
              (<["failed_count" := failed_count]>
              (<["passed_count" := passed_count]>
              (<["total_results" := total]> ∅)))))))).

(** [get_quality_statistics] (lines 1207-1301): four fetches in sequence,
    the last three with a [base_url] keyword. *)
Definition get_quality_statistics_body (env : locals) : Py value :=
  let base_url := VStr DEFAULT_BASE_URL in
  all_results_page ← get_all_results [] [];
  passed_results_page ← get_passed_results [] [("base_url", base_url)];
  failed_results_page ← get_failed_results [] [("base_url", base_url)];
  high_risk_results ← get_high_risk_results [] [("base_url", base_url)];
  statistics_of all_results_page passed_results_page failed_results_page
                high_risk_results.

Definition get_quality_statistics : list value -> list (string * value) -> Py value :=
  def [] get_quality_statistics_body.

(** [safe_get_result] (lines 1304-1331). *)
Definition safe_get_result_sig : list param := [ required "result_id" ].

(** The two [except] clauses, tried in order; an exception that matches
    neither propagates. *)
Definition safe_get_result_handler (e : exn) : Py value :=
  match e with
  | HTTPStatusError r =>
      if status_code r =? 404 then mret VNone else raise e
  | _ => if is_HTTPError e then mret VNone else raise e
  end.

Definition safe_get_result_body (env : locals) : Py value :=
  let base_url := VStr DEFAULT_BASE_URL in
  try_except (get_result_by_id [var env "result_id"; base_url] [])
             safe_get_result_handler.

Definition safe_get_result : list value -> list (string * value) -> Py value :=
  def safe_get_result_sig safe_get_result_body.

(** ** The public interface ([__all__]) *)

Inductive api :=
| Get_result_by_id
| Get_all_results
| Get_passed_results
| Get_result_by_lot_id
| Get_high_risk_results
| Get_failed_results
| Get_results_by_defect_type
| Get_quality_summary
| Get_quality_statistics
| Safe_get_result.

Definition call (f : api) : list value -> list (string * value) -> Py value :=
  match f with
  | Get_result_by_id => get_result_by_id
  | Get_all_results => get_all_results
  | Get_passed_results => get_passed_results
  | Get_result_by_lot_id => get_result_by_lot_id
  | Get_high_risk_results => get_high_risk_results
  | Get_failed_results => get_failed_results
  | Get_results_by_defect_type => get_results_by_defect_type
  | Get_quality_summary => get_quality_summary
  | Get_quality_statistics => get_quality_statistics
  | Safe_get_result => safe_get_result
  end.

Definition signature_of (f : api) : list param :=
  match f with
  | Get_result_by_id => get_result_by_id_sig
  | Get_all_results | Get_passed_results | Get_failed_results => paginated_sig
  | Get_result_by_lot_id => get_result_by_lot_id_sig
  | Get_high_risk_results => get_high_risk_results_sig
  | Get_results_by_defect_type => get_results_by_defect_type_sig
  | Get_quality_summary => get_quality_summary_sig
  | Get_quality_statistics => []
  | Safe_get_result => safe_get_result_sig
  end.

(** ** Test worlds *)

Definition iso_clock (_ : list request) : string := "2024-01-01T00:00:00".
Definition no_repr (_ : value) : string := EmptyString.

Definition ok (body : value) : outcome :=
  Responded (Response 200 EmptyString (Some body)).

Definition status (code : Z) : outcome :=
  Responded (Response code EmptyString None).

(** A server holding exactly one result: id 1, classification -1,
    predicted risk 0.9, no defect type. *)
Definition result1 : value :=
  VDict (<["predictedRisk" := VFloat 0.9]>
        (<["classification" := VInt (-1)]>
        (<["resultId" := VInt 1]> ∅))).

Definition one_result_server (_ : list request) (rq : request) : outcome :=
  if String.eqb (req_url rq) (DEFAULT_BASE_URL +:+ "/quality/results/1")
  then ok result1 else status 404.

Definition one_result_world : world := World one_result_server iso_clock no_repr.

(** A server on which every lookup is answered 404. *)
Definition empty_world : world := World (fun _ _ => status 404) iso_clock no_repr.

(** A server that is down. *)
Definition down_world : world :=
  World (fun _ _ => Failed ConnectError) iso_clock no_repr.

(** A server in fault: every request is answered 500. *)
Definition faulty_world : world := World (fun _ _ => status 500) iso_clock no_repr.

(** A server with a fixed data set: the page of all results, of the passed
    and of the failed ones, and the list of high-risk results. *)
Definition dataset_server (all passed failed high_risk : value)
    (_ : list request) (rq : request) : outcome :=
  if String.eqb (req_url rq) (DEFAULT_BASE_URL +:+ "/quality/results")
  then ok all
  else if String.eqb (req_url rq) (DEFAULT_BASE_URL +:+ "/quality/results/passed")
  then ok passed
  else if String.eqb (req_url rq) (DEFAULT_BASE_URL +:+ "/quality/results/failed")
  then ok failed
  else if String.eqb (req_url rq) (DEFAULT_BASE_URL +:+ "/quality/results/high-risk")
  then ok high_risk
  else status 404.

Definition page_of (items : list value) : value :=
  VDict (<["content" := VList items]>
        (<["totalElements" := VInt (Z.of_nat (length items))]> ∅)).

(** No results at all. *)
Definition empty_dataset_world : world :=
  World (dataset_server (page_of []) (page_of []) (page_of []) (VList []))
        iso_clock no_repr.

(** Two results: one passed with quality score 0.8, one failed without a
    score. *)
Definition scored_result : value :=
  VDict (<["qualityScore" := VFloat 0.8]>
        (<["classification" := VInt (-1)]> (<["resultId" := VInt 1]> ∅))).

Definition unscored_result : value :=
  VDict (<["classification" := VInt 1]> (<["resultId" := VInt 2]> ∅)).

Definition two_results_world : world :=
  World (dataset_server (page_of [scored_result; unscored_result])
                        (page_of [scored_result]) (page_of [unscored_result])
                        (VList []))
        iso_clock no_repr.

(** The request of [get_all_results()]. *)
Definition all_results_request : request :=
  {| req_method := VStr "GET";
     req_url := DEFAULT_BASE_URL +:+ "/quality/results";
     req_json := VNone;
     req_params := VNone;
     req_headers := json_headers;
     req_timeout := VInt 30 |}.

(** ** Vocabulary of the properties *)

(** The term one record contributes to the sum:
    [r.get("qualityScore", 0) or 0]. *)
Definition score_term (d : gmap string value) : value :=
  py_or (default (VInt 0) (d !! "qualityScore")) (VInt 0).



(** The request that [_make_request] builds from its bound arguments. *)
Definition request_of (w : world) (env : locals) : request :=
  {| req_method := var env "method";
     req_url := format_value w (var env "base_url")
                +:+ format_value w (var env "endpoint");
     req_json := var env "json_data";
     req_params := var env "params";
     req_headers := json_headers;
     req_timeout := var env "timeout" |}.

(** The local variables of [_make_request] once its six parameters are
    bound. *)
Definition make_request_env
    (method endpoint base_url json_data params timeout : value) : locals :=
  <["timeout" := timeout]> (<["params" := params]>
  (<["json_data" := json_data]> (<["base_url" := base_url]>
  (<["endpoint" := endpoint]> (<["method" := method]> ∅))))).

(** What the dispatcher makes of the outcome of a round trip. *)
Definition dispatch (o : outcome) : result response :=
  match o with
  | Responded r => if is_success r then Return r else Raise (HTTPStatusError r)
  | Failed k => Raise (RequestError k)
  end.

(** What a query function makes of it: the decoded body of a 2xx
    response. *)
Definition answer (o : outcome) : result value :=
  match dispatch o with
  | Return r =>
      match json_body r with
      | Some v => Return v
      | None => Raise JSONDecodeError
      end
  | Raise e => Raise e
  end.

(** The value of a query parameter in the mapping handed to [httpx]; no
    mapping, no parameter. *)
Definition query_param (params : value) (k : string) : option value :=
  match params with
  | VDict d => d !! k
  | _ => None
  end.

(** An optional argument of a call: left out, or passed by keyword. *)
Definition keyword (k : string) (o : option value) : list (string * value) :=
  match o with
  | Some v => [(k, v)]
  | None => []
  end.

(** An argument counts as provided when it is passed and is not [None]. *)
Definition provided (o : option value) : option value :=
  match o with
  | Some VNone => None
  | _ => o
  end.

Definition paginated (f : api) : bool :=
  match f with
  | Get_all_results | Get_passed_results | Get_failed_results => true
  | _ => false
  end.

(** The endpoint path of a paginated function. *)
Definition paginated_path (f : api) : string :=
  match f with
  | Get_passed_results => "/quality/results/passed"
  | Get_failed_results => "/quality/results/failed"
  | _ => "/quality/results"
  end.

(** [r["predictedRisk"] > t] for a record of the high-risk list. *)
Definition risk_above (t : Q) (r : value) : bool :=
  match r with
  | VDict d =>
      match d !! "predictedRisk" ≫= as_number with
      | Some n => Qgt_bool (to_Q n) t
      | None => false
      end
  | _ => false
  end.

(** The request of [get_high_risk_results(threshold)]. *)
Definition high_risk_request (threshold : value) : request :=
  {| req_method := VStr "GET";
     req_url := DEFAULT_BASE_URL +:+ "/quality/results/high-risk";
     req_json := VNone;
     req_params := VDict (<["threshold" := threshold]> ∅);
     req_headers := json_headers;
     req_timeout := VInt 30 |}.

(** A server whose high-risk endpoint ignores the threshold and lists a
    record of predicted risk 0.1. *)
Definition low_risk_result : value :=
  VDict (<["predictedRisk" := VFloat 0.1]> (<["resultId" := VInt 7]> ∅)).

Definition careless_world : world :=
  World (dataset_server (page_of [low_risk_result]) (page_of [low_risk_result])
                        (page_of []) (VList [low_risk_result]))
        iso_clock no_repr.

(** The request of a paginated function called with [page] and [size]. *)
Definition paginated_request (f : api) (page size : value) : request :=
  {| req_method := VStr "GET";
     req_url := DEFAULT_BASE_URL +:+ paginated_path f;
     req_json := VNone;
     req_params := pagination_params page size;
     req_headers := json_headers;
     req_timeout := VInt 30 |}.

(** The request of a lookup under [path] by the key [key]. *)
Definition lookup_request (w : world) (path : string) (key : value) : request :=
  {| req_method := VStr "GET";
     req_url := DEFAULT_BASE_URL +:+ (path +:+ format_value w key);
     req_json := VNone;
     req_params := VNone;
     req_headers := json_headers;
     req_timeout := VInt 30 |}.

(** A public call leaves the log as it is or adds one request, which
    carries the default timeout. *)
Definition one_default_request (before after : list request) : Prop :=
  after = before \/
  exists rq : request, after = before ++ [rq] /\ req_timeout rq = VInt 30.

(** The seven functions that turn one call into one request. *)
Definition query (f : api) : bool :=
  match f with
  | Get_quality_summary | Get_quality_statistics | Safe_get_result => false
  | _ => true
  end.

(** The three lookups by key, with the path and the parameter of each. *)
Definition lookup (f : api) : bool :=
  match f with
  | Get_result_by_id | Get_result_by_lot_id | Get_results_by_defect_type => true
  | _ => false
  end.

Definition lookup_path (f : api) : string :=
  match f with
  | Get_result_by_lot_id => "/quality/results/lot/"
  | Get_results_by_defect_type => "/quality/results/defect/"
  | _ => "/quality/results/"
  end.

Definition lookup_key (f : api) : string :=
  match f with
  | Get_result_by_lot_id => "lot_id"
  | Get_results_by_defect_type => "defect_type"
  | _ => "result_id"
  end.

(** The request a query function builds from its bound arguments. *)
Definition query_request (f : api) (w : world) (env : locals) : request :=
  match f with
  | Get_result_by_id | Get_result_by_lot_id | Get_results_by_defect_type =>
      lookup_request w (lookup_path f) (var env (lookup_key f))
  | Get_high_risk_results => high_risk_request (var env "threshold")
  | _ => paginated_request f (var env "page") (var env "size")
  end.

(** A request that reads: a GET without a JSON body, with the two JSON
    headers. *)
Definition reads_only (rq : request) : Prop :=
  req_method rq = VStr "GET" /\ req_json rq = VNone /\
  req_headers rq = json_headers.


(** The exceptions that the handlers of [safe_get_result] turn into
    [None]. *)
Definition swallowed (e : exn) : bool :=
  match e with
  | HTTPStatusError r => status_code r =? 404
  | RequestError _ => true
  | _ => false
  end.

(** A page record of the statistics: the server-reported total it holds,
    0 when the field is missing. *)
Definition total_elements (page : gmap string value) : value :=
  default (VInt 0) (page !! "totalElements").

(** ** Proof automation *)

(** Closed decidable goals, such as membership of a literal in a literal
    list, are settled by evaluation. *)
Ltac by_compute := apply (bool_decide_unpack _); vm_compute; exact I.

(** Unfolding the monad in straight-line code. *)
Ltac step_py :=
  cbv beta iota zeta delta [mbind mret Py_bind Py_ret raise now_isoformat].

(** * Properties *)

(** ** Argument binding *)

Section Binding.
Context {A : Type}.
Implicit Types (sig : list param) (args : list value)
  (kwargs : list (string * value)) (body : locals -> Py A).

Lemma bind_positional_too_many sig args env :
  (length sig < length args)%nat -> bind_positional sig args env = None.
Proof.
  revert args env.
  induction sig as [|p sig IH]; intros [|a args] env Hlen;
    simpl in *; try lia; [done|].
  apply IH. lia.
Qed.

Lemma bind_keywords_unexpected sig kwargs env k :
  k ∈ kwargs.*1 -> k ∉ p_name <$> sig -> bind_keywords sig kwargs env = None.
Proof.
  intros Hin Hout. revert env.
  induction kwargs as [|[k' v] rest IH]; intros env; simpl in *.
  - by apply elem_of_nil in Hin.
  - case_bool_decide as Hk; [|done].
    destruct (env !! k'); [done|].
    apply IH. apply elem_of_cons in Hin as [->|Hin]; [done|exact Hin].
Qed.

Lemma bind_arguments_too_many sig args kwargs :
  (length sig < length args)%nat -> bind_arguments sig args kwargs = None.
Proof.
  intros Hlen. unfold bind_arguments.
  by rewrite bind_positional_too_many.
Qed.

Lemma bind_arguments_unexpected sig args kwargs k :
  k ∈ kwargs.*1 -> k ∉ p_name <$> sig -> bind_arguments sig args kwargs = None.
Proof.
  intros Hin Hout. unfold bind_arguments.
  destruct (bind_positional sig args ∅) as [env|]; [|done]. simpl.
  by rewrite (bind_keywords_unexpected _ _ _ k).
Qed.

(** A call that does not fit the signature raises [TypeError] and leaves
    the log as it was: the body never starts. *)
Lemma def_too_many sig body args kwargs w log :
  (length sig < length args)%nat ->
  def sig body args kwargs w log = (Raise TypeError, log).
Proof. intros H. unfold def. by rewrite bind_arguments_too_many. Qed.

Lemma def_unexpected sig body args kwargs k w log :
  k ∈ kwargs.*1 -> k ∉ p_name <$> sig ->
  def sig body args kwargs w log = (Raise TypeError, log).
Proof.
  intros Hin Hout. unfold def.
  by rewrite (bind_arguments_unexpected _ _ _ k).
Qed.
End Binding.

(** ** The monad *)

Lemma bind_Return {A B} (m : Py A) (k : A -> Py B) w log a log' :
  m w log = (Return a, log') -> (m ≫= k) w log = k a w log'.
Proof. intros H. unfold mbind, Py_bind. by rewrite H. Qed.

Lemma bind_Raise {A B} (m : Py A) (k : A -> Py B) w log e log' :
  m w log = (Raise e, log') -> (m ≫= k) w log = (Raise e, log').
Proof. intros H. unfold mbind, Py_bind. by rewrite H. Qed.

(** ** The request dispatcher *)

Lemma make_request_spec args kwargs env w log :
  bind_arguments _make_request_sig args kwargs = Some env ->
  _make_request args kwargs w log =
    (dispatch (server w log (request_of w env)), log ++ [request_of w env]).
Proof.
  intros Hbind. unfold _make_request, def. rewrite Hbind.
  unfold _make_request_body, format, send, raise_for_status. step_py.
  fold (request_of w env).
  destruct (server w log (request_of w env)) as [r|k]; simpl; [|done].
  by destruct (is_success r).
Qed.

Lemma is_success_2xx r : is_success r = true <-> 200 <= status_code r <= 299.
Proof. unfold is_success. rewrite andb_true_iff, !Z.leb_le. tauto. Qed.

(** C6. Whatever way its arguments are passed, [_make_request] hands
    [httpx] one request whose URL is the base URL followed by the endpoint
    path, character for character, and whose [Content-Type] and [Accept]
    headers are [application/json]; when the response has a status outside
    200..299 the call raises the status error that carries that response
    (status code and body) and returns nothing. *)
Theorem make_request_contract
    (args : list value) (kwargs : list (string * value)) (env : locals)
    (base_url endpoint : string) (w : world) (log : list request) :
  bind_arguments _make_request_sig args kwargs = Some env ->
  var env "base_url" = VStr base_url ->
  var env "endpoint" = VStr endpoint ->
  exists rq : request,
    snd (_make_request args kwargs w log) = log ++ [rq] /\
    req_url rq = base_url +:+ endpoint /\
    req_headers rq !! "Content-Type" = Some "application/json" /\
    req_headers rq !! "Accept" = Some "application/json" /\
    forall r : response,
      server w log rq = Responded r ->
      ~ (200 <= status_code r <= 299) ->
      fst (_make_request args kwargs w log) = Raise (HTTPStatusError r).
Proof.
  intros Hbind Hbase Hpath. exists (request_of w env).
  rewrite (make_request_spec _ _ _ _ _ Hbind). simpl.
  rewrite Hbase, Hpath. repeat split; try reflexivity.
  intros r Hresp Hstatus. rewrite Hresp. simpl.
  destruct (is_success r) eqn:Hok; [|done].
  by apply is_success_2xx in Hok.
Qed.

Lemma make_request_contract_witness :
  fst (_make_request [VStr "GET"; VStr "/quality/results/1"]
                     [("base_url", VStr DEFAULT_BASE_URL)] faulty_world []) =
    Raise (HTTPStatusError (Response 500 EmptyString None)).
Proof.
  destruct (make_request_contract
              [VStr "GET"; VStr "/quality/results/1"]
              [("base_url", VStr DEFAULT_BASE_URL)]
              (make_request_env (VStr "GET") (VStr "/quality/results/1")
                 (VStr DEFAULT_BASE_URL) VNone VNone (VInt 30))
              DEFAULT_BASE_URL "/quality/results/1" faulty_world [])
    as (rq & _ & _ & _ & _ & Hfail).
  - reflexivity.
  - reflexivity.
  - reflexivity.
  - apply Hfail; [reflexivity|]. simpl. lia.
Defined.

(** ** The query functions *)

(** The two shapes in which the module calls the dispatcher. *)
Lemma bind_make_request_base (m e b : value) :
  bind_arguments _make_request_sig [m; e] [("base_url", b)] =
    Some (make_request_env m e b VNone VNone (VInt 30)).
Proof. reflexivity. Qed.

Lemma bind_make_request_params (m e b p : value) :
  bind_arguments _make_request_sig [m; e] [("base_url", b); ("params", p)] =
    Some (make_request_env m e b VNone p (VInt 30)).
Proof. reflexivity. Qed.

Lemma request_of_env w (m e b j p t : value) :
  request_of w (make_request_env m e b j p t) =
    {| req_method := m;
       req_url := format_value w b +:+ format_value w e;
       req_json := j; req_params := p;
       req_headers := json_headers; req_timeout := t |}.
Proof. reflexivity. Qed.

(** Fetch and decode: the body of every query function. *)
Lemma fetch_spec args kwargs env w log :
  bind_arguments _make_request_sig args kwargs = Some env ->
  (_make_request args kwargs ≫= json) w log =
    (answer (server w log (request_of w env)), log ++ [request_of w env]).
Proof.
  intros Hbind. unfold mbind, Py_bind.
  rewrite (make_request_spec _ _ _ _ _ Hbind). unfold answer.
  destruct (dispatch _) as [r|e]; [|done].
  unfold json. by destruct (json_body r).
Qed.

Lemma lookup_body_spec (path : string) (key : value) w log :
  (rid ← format key;
   response ← _make_request [VStr "GET"; VStr (path +:+ rid)]
                            [("base_url", VStr DEFAULT_BASE_URL)];
   json response) w log =
    (answer (server w log (lookup_request w path key)),
     log ++ [lookup_request w path key]).
Proof.
  unfold format. unfold mbind at 1. unfold Py_bind at 1.
  rewrite (fetch_spec _ _ _ _ _ (bind_make_request_base _ _ _)).
  by rewrite request_of_env.
Qed.

Lemma paginated_body_spec (f : api) (page size : value) w log :
  (response ← _make_request [VStr "GET"; VStr (paginated_path f)]
                [("base_url", VStr DEFAULT_BASE_URL);
                 ("params", pagination_params page size)];
   json response) w log =
    (answer (server w log (paginated_request f page size)),
     log ++ [paginated_request f page size]).
Proof.
  rewrite (fetch_spec _ _ _ _ _ (bind_make_request_params _ _ _ _)).
  by rewrite request_of_env.
Qed.

Lemma paginated_call_spec (f : api) args kwargs env w log :
  paginated f = true ->
  bind_arguments paginated_sig args kwargs = Some env ->
  call f args kwargs w log =
    (answer (server w log (paginated_request f (var env "page") (var env "size"))),
     log ++ [paginated_request f (var env "page") (var env "size")]).
Proof.
  intros Hf Hbind.
  destruct f; try discriminate Hf; simpl;
    unfold get_all_results, get_passed_results, get_failed_results, def;
    rewrite Hbind.
  - apply (paginated_body_spec Get_all_results).
  - apply (paginated_body_spec Get_passed_results).
  - apply (paginated_body_spec Get_failed_results).
Qed.

Lemma high_risk_body_spec env w log :
  get_high_risk_results_body env w log =
    (answer (server w log (high_risk_request (var env "threshold"))),
     log ++ [high_risk_request (var env "threshold")]).
Proof.
  unfold get_high_risk_results_body.
  rewrite (fetch_spec _ _ _ _ _ (bind_make_request_params _ _ _ _)).
  by rewrite request_of_env.
Qed.

(** ** Pagination parameters *)

Lemma pagination_params_query (page size : value) :
  query_param (pagination_params page size) "page" =
    (if is_not_None page then Some page else None) /\
  query_param (pagination_params page size) "size" =
    (if is_not_None size then Some size else None) /\
  (forall k, k <> "page" -> k <> "size" ->
     query_param (pagination_params page size) k = None) /\
  (is_not_None page = false -> is_not_None size = false ->
     pagination_params page size = VNone).
Proof.
  unfold pagination_params.
  destruct (is_not_None page), (is_not_None size); cbn [truthy];
    repeat match goal with
    | |- context [bool_decide (?m = ∅)] =>
        first [ rewrite (bool_decide_eq_true_2 (m = ∅)) by reflexivity
              | rewrite (bool_decide_eq_false_2 (m = ∅))
                  by apply insert_non_empty ]
    end; cbn [negb query_param];
    (split; [|split; [|split]]);
    try done; try (intros; by simplify_map_eq).
Qed.

Lemma provided_default (o : option value) :
  (if is_not_None (default VNone o) then Some (default VNone o) else None) =
    provided o.
Proof. by destruct o as [[]|]. Qed.

Lemma provided_None (o : option value) :
  provided o = None -> is_not_None (default VNone o) = false.
Proof. by destruct o as [[]|]. Qed.

Lemma bind_paginated_keywords (page size : option value) :
  exists env : gmap string value,
    bind_arguments paginated_sig [] (keyword "page" page ++ keyword "size" size) =
      Some env /\
    var env "page" = default VNone page /\
    var env "size" = default VNone size.
Proof.
  destruct page, size; eexists;
    (split; [reflexivity|split; reflexivity]).
Qed.

(** Passing [page] and [size] by position binds them as by keyword. *)
Lemma bind_paginated_positional (page size : value) :
  bind_arguments paginated_sig [page; size] [] =
    bind_arguments paginated_sig [] [("page", page); ("size", size)].
Proof. reflexivity. Qed.

(** C8. For [get_all_results], [get_passed_results] and
    [get_failed_results], and for every way of passing or leaving out
    [page] and [size]: the one request issued carries a provided argument
    unchanged under its own name, has no entry for an argument that is left
    out or is [None], has no other entry, and has no parameter mapping at all
    when both are left out. *)
Theorem pagination_parameters_pass_through
    (f : api) (page size : option value) (w : world) :
  paginated f = true ->
  exists rq : request,
    snd (run (call f [] (keyword "page" page ++ keyword "size" size)) w) = [rq] /\
    query_param (req_params rq) "page" = provided page /\
    query_param (req_params rq) "size" = provided size /\
    (forall k, k <> "page" -> k <> "size" ->
       query_param (req_params rq) k = None) /\
    (provided page = None -> provided size = None -> req_params rq = VNone).
Proof.
  intros Hf.
  destruct (bind_paginated_keywords page size) as (env & Hbind & Hpage & Hsize).
  exists (paginated_request f (var env "page") (var env "size")).
  unfold run. rewrite (paginated_call_spec f _ _ env w [] Hf Hbind).
  destruct (pagination_params_query (var env "page") (var env "size"))
    as (Hp & Hs & Hother & Hnone).
  cbn [snd req_params paginated_request app].
  rewrite Hpage, Hsize in *. rewrite provided_default in Hp, Hs.
  split; [reflexivity|]. split; [exact Hp|]. split; [exact Hs|].
  split; [exact Hother|].
  intros Hnp Hns. apply Hnone; by apply provided_None.
Qed.

Lemma pagination_parameters_pass_through_witness :
  exists rq : request,
    snd (run (call Get_all_results [] [("page", VInt 1); ("size", VInt 50)])
             faulty_world) = [rq] /\
    query_param (req_params rq) "page" = Some (VInt 1) /\
    query_param (req_params rq) "size" = Some (VInt 50) /\
    (forall k, k <> "page" -> k <> "size" ->
       query_param (req_params rq) k = None) /\
    (Some (VInt 1) = None -> Some (VInt 50) = None -> req_params rq = VNone).
Proof.
  exact (pagination_parameters_pass_through Get_all_results
           (Some (VInt 1)) (Some (VInt 50)) faulty_world eq_refl).
Defined.

(** X23. The paginated functions take [page] first and [size] second:
    passing the two by position is the same call as passing them by
    keyword. *)
Lemma paginated_positional_call (f : api) (page size : value) :
  paginated f = true ->
  call f [page; size] [] = call f [] [("page", page); ("size", size)].
Proof.
  intros Hf. destruct f; try discriminate Hf; simpl;
    unfold get_all_results, get_passed_results, get_failed_results, def;
    by rewrite bind_paginated_positional.
Qed.

(** ** High-risk results *)

Lemma bind_threshold (threshold : option value) :
  exists env : gmap string value,
    bind_arguments get_high_risk_results_sig [] (keyword "threshold" threshold) =
      Some env /\
    var env "threshold" = default (VFloat 0.7) threshold.
Proof.
  destruct threshold; eexists;
    (split; [reflexivity|reflexivity]).
Qed.

Lemma bind_threshold_positional (threshold : value) :
  bind_arguments get_high_risk_results_sig [threshold] [] =
    bind_arguments get_high_risk_results_sig [] [("threshold", threshold)].
Proof. reflexivity. Qed.

Lemma get_high_risk_results_spec (threshold : option value) w log :
  let t := default (VFloat 0.7) threshold in
  get_high_risk_results [] (keyword "threshold" threshold) w log =
    (answer (server w log (high_risk_request t)), log ++ [high_risk_request t]).
Proof.
  destruct (bind_threshold threshold) as (env & Hbind & Ht).
  unfold get_high_risk_results, def. rewrite Hbind.
  rewrite high_risk_body_spec. by rewrite Ht.
Qed.

(** The counterexample to C9: a server may answer the high-risk request
    with any list, here one that holds a record of predicted risk 0.1 for
    the threshold 0.7, and the client returns that list as it is. *)
Lemma high_risk_results_not_filtered :
  ~ (forall (w : world) (t : Q) (items : list value),
       fst (run (get_high_risk_results [VFloat t] []) w) = Return (VList items) ->
       Forall (fun r => risk_above t r = true) items).
Proof.
  intros H.
  specialize (H careless_world 0.7%Q [low_risk_result]).
  assert (Hrun : fst (run (get_high_risk_results [VFloat 0.7] []) careless_world) =
                 Return (VList [low_risk_result]))
    by (reflexivity).
  apply H in Hrun. inversion Hrun as [|? ? Hlow _]; subst.
  assert (Hrisk : risk_above 0.7 low_risk_result = false) by reflexivity.
  rewrite Hrisk in Hlow. discriminate Hlow.
Qed.

(** C9, amended.  [get_high_risk_results(threshold)], with [threshold]
    defaulting to 0.7, issues one GET request to [/quality/results/high-risk]
    whose [threshold] query parameter is the argument as passed, and returns
    the decoded body of a 2xx response unchanged: the client filters
    nothing, the elements are those the server chose. *)
Theorem high_risk_results_pass_through
    (threshold : option value) (w : world) (r : response) (body : value) :
  let t := default (VFloat 0.7) threshold in
  server w [] (high_risk_request t) = Responded r ->
  200 <= status_code r <= 299 ->
  json_body r = Some body ->
  run (get_high_risk_results [] (keyword "threshold" threshold)) w =
    (Return body, [high_risk_request t]) /\
  req_url (high_risk_request t) =
    DEFAULT_BASE_URL +:+ "/quality/results/high-risk" /\
  query_param (req_params (high_risk_request t)) "threshold" = Some t.
Proof.
  intros t Hresp Hstatus Hbody. split; [|split; [reflexivity|]].
  - unfold run. rewrite get_high_risk_results_spec. fold t.
    rewrite Hresp. unfold answer, dispatch.
    apply is_success_2xx in Hstatus. by rewrite Hstatus, Hbody.
  - simpl. by simplify_map_eq.
Qed.

Lemma high_risk_results_pass_through_witness :
  run (get_high_risk_results [] []) careless_world =
    (Return (VList [low_risk_result]), [high_risk_request (VFloat 0.7)]) /\
  req_url (high_risk_request (VFloat 0.7)) =
    DEFAULT_BASE_URL +:+ "/quality/results/high-risk" /\
  query_param (req_params (high_risk_request (VFloat 0.7))) "threshold" =
    Some (VFloat 0.7).
Proof.
  apply (high_risk_results_pass_through None careless_world
           (Response 200 EmptyString (Some (VList [low_risk_result])))
           (VList [low_risk_result])).
  - reflexivity.
  - simpl. lia.
  - reflexivity.
Defined.

(** ** The calls that pass [base_url] to a callee that does not take it *)

(** [get_result_by_id(result_id, base_url)]: two positional arguments for
    one parameter. *)
Lemma get_result_by_id_two_positional (a b : value) w log :
  get_result_by_id [a; b] [] w log = (Raise TypeError, log).
Proof. apply def_too_many. simpl. lia. Qed.

(** [f(base_url=base_url)] for the three list endpoints: none of their
    signatures has the keyword. *)
Lemma get_passed_results_base_url (b : value) w log :
  get_passed_results [] [("base_url", b)] w log = (Raise TypeError, log).
Proof. apply (def_unexpected _ _ _ _ "base_url"); by_compute. Qed.

Lemma get_failed_results_base_url (b : value) w log :
  get_failed_results [] [("base_url", b)] w log = (Raise TypeError, log).
Proof. apply (def_unexpected _ _ _ _ "base_url"); by_compute. Qed.

Lemma get_high_risk_results_base_url (b : value) w log :
  get_high_risk_results [] [("base_url", b)] w log = (Raise TypeError, log).
Proof. apply (def_unexpected _ _ _ _ "base_url"); by_compute. Qed.

Lemma get_quality_summary_body_raises env w log :
  get_quality_summary_body env w log = (Raise TypeError, log).
Proof.
  unfold get_quality_summary_body.
  apply bind_Raise, get_result_by_id_two_positional.
Qed.

Lemma safe_get_result_body_raises env w log :
  safe_get_result_body env w log = (Raise TypeError, log).
Proof.
  unfold safe_get_result_body, try_except.
  by rewrite get_result_by_id_two_positional.
Qed.

(** C4. Every invocation of [get_quality_summary] and of [safe_get_result],
    whatever the arguments and whatever the server, raises [TypeError] with
    no request issued: each passes [base_url] as a second positional argument
    to [get_result_by_id], which takes [result_id] only; the handlers of
    [safe_get_result] cover the [httpx] errors and let the [TypeError]
    through. *)
Theorem summary_and_safe_lookup_raise_TypeError
    (args : list value) (kwargs : list (string * value)) (w : world) :
  (forall a b log, get_result_by_id [a; b] [] w log = (Raise TypeError, log)) /\
  run (get_quality_summary args kwargs) w = (Raise TypeError, []) /\
  run (safe_get_result args kwargs) w = (Raise TypeError, []) /\
  (forall log, safe_get_result_handler TypeError w log = (Raise TypeError, log)).
Proof.
  split; [intros; apply get_result_by_id_two_positional|].
  unfold run, get_quality_summary, safe_get_result, def.
  split; [|split].
  - destruct (bind_arguments _ _ _); [|done].
    apply get_quality_summary_body_raises.
  - destruct (bind_arguments _ _ _); [|done].
    apply safe_get_result_body_raises.
  - reflexivity.
Qed.

(** ** The quality summary *)

(** X13. What the statements after the fetch compute on a fetched record
    whose predicted risk is a number or is missing: the record itself and the
    three flags, passed when the classification equals -1, high risk when the
    risk (0 if missing) exceeds 0.7, defects when a defect type is present
    and not null. *)
Lemma summary_of_flags (d : gmap string value) (n : number) w log :
  as_number (default (VInt 0) (d !! "predictedRisk")) = Some n ->
  exists s : gmap string value,
    summary_of (VDict d) w log = (Return (VDict s), log) /\
    s !! "result" = Some (VDict d) /\
    s !! "is_passed" =
      Some (VBool (py_eq_int (default VNone (d !! "classification")) (-1))) /\
    s !! "is_high_risk" = Some (VBool (Qgt_bool (to_Q n) 0.7)) /\
    s !! "has_defects" =
      Some (VBool (is_not_None (default VNone (d !! "defectType")))).
Proof.
  intros Hn. eexists. split.
  - unfold summary_of, py_get, py_gt. step_py. rewrite Hn. reflexivity.
  - repeat split; by simplify_map_eq.
Qed.

(** C1, at the scenario of the specification: the server holds one result
    (id 1, classification -1, predicted risk 0.9, no defect type).
    The lookup by id answers with that record, and the flags computed from
    it would be passed, high risk, no defects; [get_quality_summary(1)]
    itself raises [TypeError] and sends nothing. *)
Theorem get_quality_summary_fails_on_one_result :
  fst (run (get_result_by_id [VInt 1] []) one_result_world) = Return result1 /\
  run (get_quality_summary [VInt 1] []) one_result_world = (Raise TypeError, []).
Proof. split; reflexivity. Qed.

(** ** The resilient lookup *)

(** The handlers, clause by clause. *)
Lemma safe_get_result_handler_404 r w log :
  status_code r = 404 ->
  safe_get_result_handler (HTTPStatusError r) w log = (Return VNone, log).
Proof. intros H. simpl. by rewrite H. Qed.

Lemma safe_get_result_handler_other_status r w log :
  status_code r <> 404 ->
  safe_get_result_handler (HTTPStatusError r) w log =
    (Raise (HTTPStatusError r), log).
Proof. intros H. simpl. by apply Z.eqb_neq in H as ->. Qed.

Lemma safe_get_result_handler_fault k w log :
  safe_get_result_handler (RequestError k) w log = (Return VNone, log).
Proof. reflexivity. Qed.

Lemma safe_get_result_handler_passes e w log :
  is_HTTPError e = false ->
  safe_get_result_handler e w log = (Raise e, log).
Proof. by destruct e. Qed.

(** C2, on a server that has no result 999 and on a server that is down:
    the lookup fails with the 404 status error, respectively the connection
    error, which the handlers would turn into [None]; [safe_get_result(999)]
    raises [TypeError] in both worlds, before any request. *)
Theorem safe_get_result_fails_on_missing_id :
  fst (run (get_result_by_id [VInt 999] []) empty_world) =
    Raise (HTTPStatusError (Response 404 EmptyString None)) /\
  fst (run (get_result_by_id [VInt 999] []) down_world) =
    Raise (RequestError ConnectError) /\
  run (safe_get_result [VInt 999] []) empty_world = (Raise TypeError, []) /\
  run (safe_get_result [VInt 999] []) down_world = (Raise TypeError, []).
Proof. repeat split; reflexivity. Qed.

(** ** The quality statistics *)

(** The first fetch: [get_all_results()] sends one request, without query
    parameters. *)
Lemma get_all_results_spec w log :
  get_all_results [] [] w log =
    (answer (server w log all_results_request), log ++ [all_results_request]).
Proof.
  destruct (bind_paginated_keywords None None) as (env & Hbind & Hpage & Hsize).
  change (get_all_results [] []) with (call Get_all_results [] []).
  rewrite (paginated_call_spec Get_all_results [] [] env w log eq_refl Hbind).
  by rewrite Hpage, Hsize.
Qed.

Lemma get_quality_statistics_body_outcome env w log :
  get_quality_statistics_body env w log =
    match get_all_results [] [] w log with
    | (Return _, log') => (Raise TypeError, log')
    | (Raise e, log') => (Raise e, log')
    end.
Proof.
  unfold get_quality_statistics_body.
  destruct (get_all_results [] [] w log) as [[page|e] log'] eqn:Hall.
  - rewrite (bind_Return _ _ _ _ _ _ Hall).
    apply bind_Raise, get_passed_results_base_url.
  - by rewrite (bind_Raise _ _ _ _ _ _ Hall).
Qed.

(** The counterexample to C5: with the server in fault the first call
    fails, and the statistics helper raises that status error, not a
    [TypeError]. *)
Lemma get_quality_statistics_not_always_TypeError :
  ~ (forall w : world,
       fst (run (get_quality_statistics [] []) w) = Raise TypeError).
Proof.
  intros H. specialize (H faulty_world).
  assert (Hrun : fst (run (get_quality_statistics [] []) faulty_world) =
                 Raise (HTTPStatusError (Response 500 EmptyString None)))
    by reflexivity.
  rewrite Hrun in H. discriminate H.
Qed.

(** C5, amended.  [get_quality_statistics()] never returns a record.  When
    the initial [get_all_results()] call returns, the next call, which
    passes a [base_url] keyword that [get_passed_results] does not declare,
    raises [TypeError]; when the initial call fails, its error propagates.
    Either way exactly one request has been sent, the one of
    [get_all_results()].  The same keyword is refused by
    [get_failed_results] and [get_high_risk_results]. *)
Theorem get_quality_statistics_never_returns (w : world) :
  match run (get_all_results [] []) w with
  | (Return _, log) =>
      run (get_quality_statistics [] []) w = (Raise TypeError, log)
  | (Raise e, log) =>
      run (get_quality_statistics [] []) w = (Raise e, log)
  end /\
  snd (run (get_quality_statistics [] []) w) = [all_results_request] /\
  (forall args kwargs v,
     fst (run (get_quality_statistics args kwargs) w) <> Return v) /\
  (forall b log,
     get_passed_results [] [("base_url", b)] w log = (Raise TypeError, log) /\
     get_failed_results [] [("base_url", b)] w log = (Raise TypeError, log) /\
     get_high_risk_results [] [("base_url", b)] w log = (Raise TypeError, log)).
Proof.
  split; [|split; [|split]].
  - unfold run.
    change (get_quality_statistics [] [] w [])
      with (get_quality_statistics_body ∅ w []).
    rewrite get_quality_statistics_body_outcome.
    by destruct (get_all_results [] [] w []) as [[page|e] log].
  - unfold run.
    change (get_quality_statistics [] [] w [])
      with (get_quality_statistics_body ∅ w []).
    rewrite get_quality_statistics_body_outcome, get_all_results_spec.
    by destruct (answer _).
  - intros args kwargs v. unfold run, get_quality_statistics, def.
    destruct (bind_arguments _ _ _) as [env|]; [|done].
    rewrite get_quality_statistics_body_outcome.
    by destruct (get_all_results [] [] w []) as [[page|e] log].
  - intros b log. split; [|split].
    + apply get_passed_results_base_url.
    + apply get_failed_results_base_url.
    + apply get_high_risk_results_base_url.
Qed.

(** *** The pass rate *)

Lemma Qgt_bool_lt (a b : Q) : Qgt_bool a b = true <-> (b < a)%Q.
Proof.
  unfold Qgt_bool. rewrite negb_true_iff.
  split.
  - intros H. apply Qnot_le_lt. intros Hle.
    apply Qle_bool_iff in Hle. congruence.
  - intros H. destruct (Qle_bool a b) eqn:E; [|done].
    apply Qle_bool_iff in E. by apply Qlt_not_le in H.
Qed.

Lemma Qgt_bool_nonzero (a : Q) : Qgt_bool a 0 = true -> Qeq_bool a 0 = false.
Proof.
  intros H. apply Qgt_bool_lt in H.
  destruct (Qeq_bool a 0) eqn:E; [|done].
  apply Qeq_bool_iff in E. rewrite E in H. by apply Qlt_irrefl in H.
Qed.

(** X16. The guard [total > 0] keeps the division away from a zero
    divisor: whatever the two counts are, the pass rate never raises
    [ZeroDivisionError]. *)
Lemma pass_rate_no_division_fault (passed_count total : value) w log :
  fst (pass_rate passed_count total w log) <> Raise ZeroDivisionError.
Proof.
  unfold pass_rate, py_gt.
  destruct (as_number total) as [t|] eqn:Ht; step_py; [|done].
  destruct (Qgt_bool (to_Q t) 0) eqn:Hpos; [|done].
  unfold py_truediv. rewrite Ht.
  destruct (as_number passed_count) as [p|]; step_py; [|done].
  rewrite (Qgt_bool_nonzero _ Hpos). unfold py_mul. simpl. done.
Qed.

(** With no results at all the rate is the integer 0. *)
Lemma pass_rate_zero_total (passed_count : value) w log :
  pass_rate passed_count (VInt 0) w log = (Return (VInt 0), log).
Proof. reflexivity. Qed.


(** *** The average quality score *)

Lemma score_term_missing d :
  d !! "qualityScore" = None -> score_term d = VInt 0.
Proof. intros H. unfold score_term. by rewrite H. Qed.

Lemma score_term_null d :
  d !! "qualityScore" = Some VNone -> score_term d = VInt 0.
Proof. intros H. unfold score_term. by rewrite H. Qed.



(** On a page without content the average is the integer 0. *)
Lemma average_quality_score_empty w log :
  average_quality_score (VList []) w log = (Return (VInt 0), log).
Proof. reflexivity. Qed.


(** *** The statistics helper on concrete data sets *)

(** C3, on a server without results: the four fetches would all succeed
    and the statements after them would give a pass rate of 0, without a
    division; [get_quality_statistics()] raises [TypeError] after the first
    request and returns no record. *)
Theorem get_quality_statistics_fails_on_empty_dataset :
  run (get_quality_statistics [] []) empty_dataset_world =
    (Raise TypeError, [all_results_request]) /\
  exists s : gmap string value,
    run (statistics_of (page_of []) (page_of []) (page_of []) (VList []))
        empty_dataset_world = (Return (VDict s), []) /\
    s !! "total_results" = Some (VInt 0) /\
    s !! "pass_rate" = Some (VInt 0).
Proof.
  split; [reflexivity|].
  eexists. split; [reflexivity|].
  split; reflexivity.
Qed.

(** C7, on a server with two results, one scored 0.8 and one without a
    score: the statements after the fetches would average the page to
    (0.8 + 0) / 2 = 2/5; [get_quality_statistics()] raises [TypeError] after
    the first request and returns no record. *)
Theorem get_quality_statistics_fails_on_scored_page :
  run (get_quality_statistics [] []) two_results_world =
    (Raise TypeError, [all_results_request]) /\
  exists s : gmap string value,
    run (statistics_of (page_of [scored_result; unscored_result])
                       (page_of [scored_result]) (page_of [unscored_result])
                       (VList []))
        two_results_world = (Return (VDict s), []) /\
    s !! "average_quality_score" = Some (VFloat (2 # 5)).
Proof.
  split; [reflexivity|].
  eexists. split; reflexivity.
Qed.

(** ** Base URL and timeout *)

(** No public signature has a [timeout] parameter. *)
Lemma timeout_not_a_parameter (f : api) : "timeout" ∉ p_name <$> signature_of f.
Proof. destruct f; by_compute. Qed.

Lemma call_def (f : api) :
  exists body : gmap string value -> Py value, call f = def (signature_of f) body.
Proof. destruct f; eexists; reflexivity. Qed.

Lemma one_default_request_snoc (log : list request) (rq : request) :
  req_timeout rq = VInt 30 -> one_default_request log (log ++ [rq]).
Proof. intros H. right. exists rq. by split. Qed.

Lemma lookup_body_log (path : string) (key : value) w log :
  one_default_request log
    (snd ((rid ← format key;
           response ← _make_request [VStr "GET"; VStr (path +:+ rid)]
                                    [("base_url", VStr DEFAULT_BASE_URL)];
           json response) w log)).
Proof. rewrite lookup_body_spec. apply one_default_request_snoc; reflexivity. Qed.

Lemma paginated_bodies_log env w log :
  one_default_request log (snd (get_all_results_body env w log)) /\
  one_default_request log (snd (get_passed_results_body env w log)) /\
  one_default_request log (snd (get_failed_results_body env w log)).
Proof.
  pose proof (paginated_body_spec Get_all_results
                (var env "page") (var env "size") w log) as Hall.
  pose proof (paginated_body_spec Get_passed_results
                (var env "page") (var env "size") w log) as Hpassed.
  pose proof (paginated_body_spec Get_failed_results
                (var env "page") (var env "size") w log) as Hfailed.
  unfold get_all_results_body, get_passed_results_body, get_failed_results_body.
  cbn [paginated_path] in *. cbv zeta.
  rewrite Hall, Hpassed, Hfailed.
  repeat split; apply one_default_request_snoc; reflexivity.
Qed.

Lemma get_all_results_log w log :
  one_default_request log (snd (get_all_results [] [] w log)).
Proof.
  destruct (bind_paginated_keywords None None) as (env & Hbind & _).
  unfold get_all_results, def. simpl in Hbind. rewrite Hbind.
  apply (proj1 (paginated_bodies_log env w log)).
Qed.

Lemma call_log (f : api) args kwargs w log :
  one_default_request log (snd (call f args kwargs w log)).
Proof.
  destruct f; simpl;
    unfold get_result_by_id, get_all_results, get_passed_results,
      get_result_by_lot_id, get_high_risk_results, get_failed_results,
      get_results_by_defect_type, get_quality_summary, get_quality_statistics,
      safe_get_result, def;
    (destruct (bind_arguments _ _ _) as [env|]; [|by left]).
  - apply lookup_body_log.
  - apply (proj1 (paginated_bodies_log env w log)).
  - apply (proj1 (proj2 (paginated_bodies_log env w log))).
  - apply lookup_body_log.
  - rewrite high_risk_body_spec. apply one_default_request_snoc; reflexivity.
  - apply (proj2 (proj2 (paginated_bodies_log env w log))).
  - apply lookup_body_log.
  - rewrite get_quality_summary_body_raises. by left.
  - rewrite get_quality_statistics_body_outcome.
    pose proof (get_all_results_log w log) as Hall.
    by destruct (get_all_results [] [] w log) as [[page|e] log'].
  - rewrite safe_get_result_body_raises. by left.
Qed.

(** The counterexample to C10: the lookup by id takes no [timeout]; the
    call that passes one raises [TypeError] and sends nothing, while the
    same call without it is answered. *)
Lemma public_call_refuses_timeout :
  run (call Get_result_by_id [VInt 1] [("timeout", VInt 5)]) one_result_world =
    (Raise TypeError, []) /\
  fst (run (call Get_result_by_id [VInt 1] []) one_result_world) = Return result1.
Proof. split; reflexivity. Qed.

(** C10, amended.  The dispatcher [_make_request] takes the base URL and
    the timeout per call, with the defaults [http://localhost:8080/api/v1]
    and 30 seconds.  No public function takes a timeout: a call that passes
    the keyword raises [TypeError] with nothing sent, and every request that
    a public call issues carries the timeout 30. *)
Theorem timeout_is_fixed_for_public_calls (w : world) :
  (forall (method endpoint : string) log,
     snd (_make_request [VStr method; VStr endpoint] [] w log) =
       log ++ [ {| req_method := VStr method;
                   req_url := DEFAULT_BASE_URL +:+ endpoint;
                   req_json := VNone; req_params := VNone;
                   req_headers := json_headers;
                   req_timeout := VInt 30 |} ]) /\
  (forall (method endpoint base_url : string) (timeout : value) log,
     snd (_make_request [VStr method; VStr endpoint]
            [("base_url", VStr base_url); ("timeout", timeout)] w log) =
       log ++ [ {| req_method := VStr method;
                   req_url := base_url +:+ endpoint;
                   req_json := VNone; req_params := VNone;
                   req_headers := json_headers;
                   req_timeout := timeout |} ]) /\
  (forall (f : api) args kwargs,
     "timeout" ∈ kwargs.*1 ->
     run (call f args kwargs) w = (Raise TypeError, [])) /\
  (forall (f : api) args kwargs,
     Forall (fun rq => req_timeout rq = VInt 30)
            (snd (run (call f args kwargs) w))).
Proof.
  split; [|split; [|split]].
  - intros method endpoint log.
    by rewrite (make_request_spec _ _
                  (make_request_env (VStr method) (VStr endpoint)
                     (VStr DEFAULT_BASE_URL) VNone VNone (VInt 30)))
      by (reflexivity).
  - intros method endpoint base_url timeout log.
    by rewrite (make_request_spec _ _
                  (make_request_env (VStr method) (VStr endpoint)
                     (VStr base_url) VNone VNone timeout))
      by (reflexivity).
  - intros f args kwargs Hin.
    destruct (call_def f) as [body ->].
    apply (def_unexpected _ _ _ _ "timeout"); [exact Hin|].
    apply timeout_not_a_parameter.
  - intros f args kwargs.
    unfold run.
    destruct (call_log f args kwargs w []) as [->|(rq & -> & Hrq)].
    + constructor.
    + by repeat constructor.
Qed.

Lemma timeout_is_fixed_for_public_calls_witness :
  run (call Get_all_results [] [("timeout", VInt 5)]) faulty_world =
    (Raise TypeError, []).
Proof.
  apply (timeout_is_fixed_for_public_calls faulty_world).
  by_compute.
Defined.

(** ** Query functions: one call, one round trip *)

Lemma query_call_spec (f : api) args kwargs env w log :
  query f = true ->
  bind_arguments (signature_of f) args kwargs = Some env ->
  call f args kwargs w log =
    (answer (server w log (query_request f w env)),
     log ++ [query_request f w env]).
Proof.
  intros Hf Hbind.
  destruct f; try discriminate Hf; cbn [signature_of] in Hbind;
    cbn [call query_request lookup_path lookup_key];
    unfold get_result_by_id, get_all_results, get_passed_results,
      get_result_by_lot_id, get_high_risk_results, get_failed_results,
      get_results_by_defect_type, def;
    rewrite Hbind.
  - apply (lookup_body_spec "/quality/results/").
  - apply (paginated_body_spec Get_all_results).
  - apply (paginated_body_spec Get_passed_results).
  - apply (lookup_body_spec "/quality/results/lot/").
  - apply high_risk_body_spec.
  - apply (paginated_body_spec Get_failed_results).
  - apply (lookup_body_spec "/quality/results/defect/").
Qed.

(** X1. A query function whose call binds sends exactly one request and,
    when the server answers it with a 2xx status and a JSON body, returns
    that decoded body as it is, whatever its shape. *)
Theorem query_returns_decoded_body
    (f : api) args kwargs (env : gmap string value) (w : world)
    (r : response) (body : value) :
  query f = true ->
  bind_arguments (signature_of f) args kwargs = Some env ->
  server w [] (query_request f w env) = Responded r ->
  200 <= status_code r <= 299 ->
  json_body r = Some body ->
  run (call f args kwargs) w = (Return body, [query_request f w env]).
Proof.
  intros Hf Hbind Hresp Hstatus Hbody. unfold run.
  rewrite (query_call_spec f _ _ env w [] Hf Hbind), Hresp.
  unfold answer, dispatch. apply is_success_2xx in Hstatus.
  by rewrite Hstatus, Hbody.
Qed.

Lemma query_returns_decoded_body_witness :
  run (call Get_result_by_id [VInt 1] []) one_result_world =
    (Return result1,
     [query_request Get_result_by_id one_result_world (<["result_id" := VInt 1]> ∅)]).
Proof.
  apply (query_returns_decoded_body Get_result_by_id [VInt 1] []
           (<["result_id" := VInt 1]> ∅) one_result_world
           (Response 200 EmptyString (Some result1)) result1).
  - reflexivity.
  - reflexivity.
  - reflexivity.
  - simpl. lia.
  - reflexivity.
Defined.

(** X2. A query function does not handle the errors of [httpx]: a response
    with a status outside 200..299 (a 404 as much as a 500) comes out as the
    status error that carries that response, and a connection or timeout
    failure comes out as that request error; in both cases after the one
    request. *)
Theorem query_propagates_httpx_errors
    (f : api) args kwargs (env : gmap string value) (w : world) :
  query f = true ->
  bind_arguments (signature_of f) args kwargs = Some env ->
  (forall r : response,
     server w [] (query_request f w env) = Responded r ->
     ~ (200 <= status_code r <= 299) ->
     run (call f args kwargs) w =
       (Raise (HTTPStatusError r), [query_request f w env])) /\
  (forall k : fault,
     server w [] (query_request f w env) = Failed k ->
     run (call f args kwargs) w =
       (Raise (RequestError k), [query_request f w env])).
Proof.
  intros Hf Hbind. unfold run.
  rewrite (query_call_spec f _ _ env w [] Hf Hbind).
  split.
  - intros r Hresp Hstatus. rewrite Hresp. unfold answer, dispatch.
    destruct (is_success r) eqn:Hok; [|done].
    by apply is_success_2xx in Hok.
  - intros k Hfail. by rewrite Hfail.
Qed.

Lemma query_propagates_httpx_errors_witness :
  run (call Get_results_by_defect_type [VStr "electrical_fail"] []) empty_world =
    (Raise (HTTPStatusError (Response 404 EmptyString None)),
     [query_request Get_results_by_defect_type empty_world
        (<["defect_type" := VStr "electrical_fail"]> ∅)]).
Proof.
  apply (query_propagates_httpx_errors Get_results_by_defect_type
           [VStr "electrical_fail"] []
           (<["defect_type" := VStr "electrical_fail"]> ∅) empty_world).
  - reflexivity.
  - reflexivity.
  - reflexivity.
  - simpl. lia.
Defined.

(** X3. When the server answers a query with a 2xx status and a body that
    is not JSON, the decoding error of [response.json()] comes out of the
    query function; it is not an [httpx] error. *)
Theorem query_undecodable_body
    (f : api) args kwargs (env : gmap string value) (w : world) (r : response) :
  query f = true ->
  bind_arguments (signature_of f) args kwargs = Some env ->
  server w [] (query_request f w env) = Responded r ->
  200 <= status_code r <= 299 ->
  json_body r = None ->
  run (call f args kwargs) w =
    (Raise JSONDecodeError, [query_request f w env]) /\
  is_HTTPError JSONDecodeError = false.
Proof.
  intros Hf Hbind Hresp Hstatus Hbody. split; [|done]. unfold run.
  rewrite (query_call_spec f _ _ env w [] Hf Hbind), Hresp.
  unfold answer, dispatch. apply is_success_2xx in Hstatus.
  by rewrite Hstatus, Hbody.
Qed.

Lemma query_undecodable_body_witness :
  run (call Get_all_results [] [])
      (World (fun _ _ => Responded (Response 204 EmptyString None))
             iso_clock no_repr) =
    (Raise JSONDecodeError,
     [query_request Get_all_results
        (World (fun _ _ => Responded (Response 204 EmptyString None))
               iso_clock no_repr)
        (<["size" := VNone]> (<["page" := VNone]> ∅))]) /\
  is_HTTPError JSONDecodeError = false.
Proof.
  apply (query_undecodable_body Get_all_results [] []
           (<["size" := VNone]> (<["page" := VNone]> ∅))
           (World (fun _ _ => Responded (Response 204 EmptyString None))
                  iso_clock no_repr)
           (Response 204 EmptyString None)).
  - reflexivity.
  - reflexivity.
  - reflexivity.
  - simpl. lia.
  - reflexivity.
Defined.

(** ** Lookups by key *)











(** X6. A lookup takes exactly one argument: called without any, or with
    two or more positional arguments, it raises [TypeError] and sends
    nothing. *)
Theorem lookup_takes_one_argument (f : api) (args : list value) (w : world) :
  lookup f = true ->
  length args <> 1%nat ->
  run (call f args []) w = (Raise TypeError, []).
Proof.
  intros Hf Hlen. destruct args as [|a [|b rest]].
  - destruct f; try discriminate Hf; reflexivity.
  - done.
  - destruct (call_def f) as [body ->]. apply def_too_many.
    destruct f; try discriminate Hf; simpl; lia.
Qed.

Lemma lookup_takes_one_argument_witness :
  run (call Get_result_by_lot_id [] []) one_result_world = (Raise TypeError, []).
Proof.
  apply (lookup_takes_one_argument Get_result_by_lot_id [] one_result_world).
  - reflexivity.
  - simpl. lia.
Defined.

(** ** What a public call sends *)

(** Whatever holds of the request of every query function holds of every
    request that a public call sends, and there is at most one. *)
Lemma public_requests (P : request -> Prop) :
  (forall f w env, query f = true -> P (query_request f w env)) ->
  forall (f : api) args kwargs w log,
    exists extra : list request,
      snd (call f args kwargs w log) = log ++ extra /\
      Forall P extra /\ (length extra <= 1)%nat.
Proof.
  intros HP f args kwargs w log.
  destruct (query f) eqn:Hq.
  - destruct (bind_arguments (signature_of f) args kwargs) as [env|] eqn:Hbind.
    + rewrite (query_call_spec f _ _ env w log Hq Hbind).
      exists [query_request f w env]. split; [done|].
      split; [|simpl; lia]. constructor; [by apply HP|constructor].
    + destruct (call_def f) as [body ->]. unfold def. rewrite Hbind.
      exists []. split; [by rewrite app_nil_r|]. split; [constructor|simpl; lia].
  - destruct f; try discriminate Hq; cbn [call];
      unfold get_quality_summary, get_quality_statistics, safe_get_result, def;
      (destruct (bind_arguments _ _ _) as [env|];
       [|exists []; split; [by rewrite app_nil_r|];
         split; [constructor|simpl; lia]]).
    + rewrite get_quality_summary_body_raises.
      exists []. split; [by rewrite app_nil_r|]. split; [constructor|simpl; lia].
    + rewrite get_quality_statistics_body_outcome, get_all_results_spec.
      exists [all_results_request].
      split; [by destruct (answer _)|]. split; [|simpl; lia].
      constructor; [|constructor].
      change all_results_request with (query_request Get_all_results w ∅).
      by apply HP.
    + rewrite safe_get_result_body_raises.
      exists []. split; [by rewrite app_nil_r|]. split; [constructor|simpl; lia].
Qed.

(** X7. The client only reads: every request that any public call sends,
    with any arguments and against any server, is a GET without a JSON body
    and with the two JSON headers. *)
Theorem public_calls_only_read (f : api) args kwargs (w : world) :
  Forall reads_only (snd (run (call f args kwargs) w)).
Proof.
  unfold run.
  destruct (public_requests reads_only) with (f := f) (args := args)
    (kwargs := kwargs) (w := w) (log := @nil request)
    as (extra & -> & Hall & _); [|exact Hall].
  intros g w' env Hg. by destruct g.
Qed.


(** X9. No public call sends more than one request, the statistics helper
    included. *)
Theorem public_calls_send_at_most_one_request (f : api) args kwargs (w : world) :
  (length (snd (run (call f args kwargs) w)) <= 1)%nat.
Proof.
  unfold run.
  destruct (public_requests (fun _ => True))
    with (f := f) (args := args) (kwargs := kwargs) (w := w)
         (log := @nil request)
    as (extra & -> & _ & Hlen); [done|exact Hlen].
Qed.

Lemma base_url_not_a_parameter (f : api) :
  "base_url" ∉ p_name <$> signature_of f.
Proof. destruct f; by_compute. Qed.

(** X10. No public function takes a [base_url]: a call that passes the
    keyword raises [TypeError] and sends nothing. *)
Theorem public_calls_refuse_base_url
    (f : api) args (kwargs : list (string * value)) (w : world) :
  "base_url" ∈ kwargs.*1 ->
  run (call f args kwargs) w = (Raise TypeError, []).
Proof.
  intros Hin. destruct (call_def f) as [body ->].
  apply (def_unexpected _ _ _ _ "base_url"); [exact Hin|].
  apply base_url_not_a_parameter.
Qed.

Lemma public_calls_refuse_base_url_witness :
  run (call Get_all_results []
         [("base_url", VStr "http://quality.example.org/api/v1")])
      one_result_world = (Raise TypeError, []).
Proof.
  apply (public_calls_refuse_base_url Get_all_results []
           [("base_url", VStr "http://quality.example.org/api/v1")]
           one_result_world).
  by_compute.
Defined.

(** ** The except clauses of the resilient lookup *)



(** X12. When the protected call raises a 404 status error or any request
    error (connection, timeout), the clauses return [None] in its place,
    after the requests that the call made. *)
Theorem safe_handler_swallows
    (m : Py value) (w : world) (log : list request) (e : exn) :
  fst (m w log) = Raise e ->
  swallowed e = true ->
  try_except m safe_get_result_handler w log = (Return VNone, snd (m w log)).
Proof.
  unfold try_except. destruct (m w log) as [[v|e'] log']; [done|].
  simpl. intros [= ->] Hsw.
  destruct e as [| | | |r|k]; try discriminate Hsw; simpl in *.
  - by rewrite Hsw.
  - done.
Qed.

Lemma safe_handler_swallows_witness :
  try_except (get_result_by_id [VInt 999] []) safe_get_result_handler
    empty_world [] =
    (Return VNone, snd (get_result_by_id [VInt 999] [] empty_world [])).
Proof.
  apply (safe_handler_swallows (get_result_by_id [VInt 999] []) empty_world []
           (HTTPStatusError (Response 404 EmptyString None))).
  - reflexivity.
  - reflexivity.
Defined.

(** ** The derived views on fetched data *)

Lemma summary_of_flags_witness :
  exists s : gmap string value,
    summary_of result1 one_result_world [] = (Return (VDict s), []) /\
    s !! "result" = Some result1 /\
    s !! "is_passed" = Some (VBool true) /\
    s !! "is_high_risk" = Some (VBool true) /\
    s !! "has_defects" = Some (VBool false).
Proof.
  exact (summary_of_flags
           (<["predictedRisk" := VFloat 0.9]>
              (<["classification" := VInt (-1)]> (<["resultId" := VInt 1]> ∅)))
           (NFloat 0.9) one_result_world [] eq_refl).
Defined.

(** X14. Only a missing [predictedRisk] counts as 0.  When the field is
    present and not a number (a JSON null, a string, a list, an object), the
    comparison with 0.7 raises [TypeError] and no summary is produced. *)
Theorem summary_of_rejects_non_numeric_risk
    (d : gmap string value) (risk : value) (w : world) (log : list request) :
  d !! "predictedRisk" = Some risk ->
  as_number risk = None ->
  summary_of (VDict d) w log = (Raise TypeError, log).
Proof.
  intros Hrisk Hnum. unfold summary_of, py_get, py_gt. step_py.
  rewrite Hrisk. simpl. by rewrite Hnum.
Qed.

Lemma summary_of_rejects_non_numeric_risk_witness :
  summary_of (VDict (<["predictedRisk" := VNone]> ∅)) one_result_world [] =
    (Raise TypeError, []).
Proof.
  apply (summary_of_rejects_non_numeric_risk
           (<["predictedRisk" := VNone]> ∅) VNone one_result_world []).
  - reflexivity.
  - reflexivity.
Defined.

(** X15. Both derived views read their input with [.get]: given a decoded
    body that is not a JSON object (an array, a number, a string, null),
    they raise [AttributeError]. *)
Theorem derived_views_need_records
    (body passed failed high_risk : value) (w : world) (log : list request) :
  (forall d, body <> VDict d) ->
  summary_of body w log = (Raise AttributeError, log) /\
  statistics_of body passed failed high_risk w log = (Raise AttributeError, log).
Proof.
  intros Hbody. destruct body; try (split; reflexivity).
  by destruct (Hbody d).
Qed.

Lemma derived_views_need_records_witness :
  summary_of (VList []) one_result_world [] = (Raise AttributeError, []) /\
  statistics_of (VList []) (page_of []) (page_of []) (VList [])
    one_result_world [] = (Raise AttributeError, []).
Proof.
  apply (derived_views_need_records (VList []) (page_of []) (page_of [])
           (VList []) one_result_world []).
  intros d. discriminate.
Defined.

(** X17. The guard of the pass rate is [total > 0]: for every numeric
    total that is zero or negative the rate is the integer 0, whatever the
    passed count is, a non-number included. *)
Theorem pass_rate_nonpositive_total
    (passed_count total : value) (t : number) (w : world) (log : list request) :
  as_number total = Some t ->
  (to_Q t <= 0)%Q ->
  pass_rate passed_count total w log = (Return (VInt 0), log).
Proof.
  intros Ht Hle. unfold pass_rate, py_gt. rewrite Ht. step_py.
  assert (Hgt : Qgt_bool (to_Q t) 0 = false).
  { destruct (Qgt_bool (to_Q t) 0) eqn:E; [|done].
    apply Qgt_bool_lt in E. by apply Qlt_not_le in E. }
  by rewrite Hgt.
Qed.

Lemma pass_rate_nonpositive_total_witness :
  pass_rate VNone (VInt (-3)) one_result_world [] = (Return (VInt 0), []).
Proof.
  apply (pass_rate_nonpositive_total VNone (VInt (-3)) (NInt (-3))
           one_result_world []).
  - reflexivity.
  - unfold Qle. simpl. lia.
Defined.


(** X19. A total that is not a number, such as a JSON null in
    [totalElements], makes the guard itself raise [TypeError]: only a
    missing field counts as 0. *)
Theorem pass_rate_rejects_non_numeric_total
    (passed_count total : value) (w : world) (log : list request) :
  as_number total = None ->
  pass_rate passed_count total w log = (Raise TypeError, log).
Proof. intros Ht. unfold pass_rate, py_gt. by rewrite Ht. Qed.

Lemma pass_rate_rejects_non_numeric_total_witness :
  pass_rate (VInt 3) VNone one_result_world [] = (Raise TypeError, []).
Proof.
  apply (pass_rate_rejects_non_numeric_total (VInt 3) VNone one_result_world []).
  reflexivity.
Defined.


Lemma sum_scores_no_division_fault (items : list value) :
  forall (acc : value) w log,
    fst (sum_scores items acc w log) <> Raise ZeroDivisionError.
Proof.
  induction items as [|r items IH]; intros acc w log; simpl; [done|].
  unfold py_get. destruct r; step_py; try done.
  set (score := py_or _ (VInt 0)). unfold py_add.
  destruct (as_number acc) as [[x|x]|];
    destruct (as_number score) as [[y|y]|]; step_py; try done; apply IH.
Qed.

Lemma divisor_nonzero (n : nat) :
  n <> 0%nat -> Qeq_bool (inject_Z (Z.of_nat n)) 0 = false.
Proof.
  intros Hn. destruct (Qeq_bool _ 0) eqn:E; [|done].
  apply Qeq_bool_iff in E. unfold Qeq in E. simpl in E. lia.
Qed.

(** X21. The average never divides by zero, whatever [content] is: an
    empty or missing content is caught by the truth test, and a content
    that passes it and can be summed has a nonzero length. *)
Theorem average_quality_score_no_division_fault
    (content : value) (w : world) (log : list request) :
  fst (average_quality_score content w log) <> Raise ZeroDivisionError.
Proof.
  unfold average_quality_score.
  destruct (truthy content) eqn:Htruthy; [|done].
  assert (Hdiv : forall (items : list value) (n : nat), n <> 0%nat ->
            fst ((total ← sum_scores items (VInt 0);
                  py_truediv total (VInt (Z.of_nat n))) w log)
            <> Raise ZeroDivisionError).
  { intros items n Hn. unfold mbind, Py_bind.
    pose proof (sum_scores_no_division_fault items (VInt 0) w log) as Hsum.
    destruct (sum_scores items (VInt 0) w log) as [[total|e] log'];
      [|exact Hsum].
    unfold py_truediv. destruct (as_number total); [|done].
    cbn [as_number to_Q]. by rewrite (divisor_nonzero n Hn). }
  destruct content as [| | | |s|l|d]; try done.
  - apply (Hdiv _ (String.length s)). by destruct s.
  - apply (Hdiv l (length l)). by destruct l.
  - apply (Hdiv _ (size d)). intros Hsize.
    apply map_size_empty_iff in Hsize. subst d.
    simpl in Htruthy. by rewrite bool_decide_eq_true_2 in Htruthy.
Qed.

(** X22. Once the four bodies are fetched, the statistics record is put
    together from them as follows: the three counts are the
    [totalElements] that the server reports in the three pages (0 when the
    field is missing; they are not recounted from any content, and the
    failed count takes no part in the rate), the high-risk count is the
    length of the high-risk list, the rate and the average are those of
    the page of all results, and the stamp is the clock reading. *)
Theorem statistics_of_fields
    (all passed failed : gmap string value) (high_risk : list value)
    (avg rate : value) (w : world) (log : list request) :
  average_quality_score (default (VList []) (all !! "content")) w log =
    (Return avg, log) ->
  pass_rate (total_elements passed) (total_elements all) w log =
    (Return rate, log) ->
  exists s : gmap string value,
    statistics_of (VDict all) (VDict passed) (VDict failed) (VList high_risk)
                  w log = (Return (VDict s), log) /\
    s !! "total_results" = Some (total_elements all) /\
    s !! "passed_count" = Some (total_elements passed) /\
    s !! "failed_count" = Some (total_elements failed) /\
    s !! "high_risk_count" = Some (VInt (Z.of_nat (length high_risk))) /\
    s !! "pass_rate" = Some rate /\
    s !! "average_quality_score" = Some avg /\
    s !! "statistics_generated_at" = Some (VStr (clock w log)).
Proof.
  intros Havg Hrate. eexists. split.
  - unfold statistics_of, py_get, py_len. step_py.
    fold (total_elements all) (total_elements passed) (total_elements failed).
    rewrite Havg, Hrate. reflexivity.
  - repeat split; by simplify_map_eq.
Qed.

Lemma statistics_of_fields_witness :
  exists s : gmap string value,
    statistics_of (page_of [scored_result; unscored_result])
                  (page_of [scored_result]) (page_of [unscored_result])
                  (VList []) two_results_world [] = (Return (VDict s), []) /\
    s !! "total_results" = Some (VInt 2) /\
    s !! "passed_count" = Some (VInt 1) /\
    s !! "failed_count" = Some (VInt 1) /\
    s !! "high_risk_count" = Some (VInt 0) /\
    s !! "pass_rate" = Some (VFloat 50) /\
    s !! "average_quality_score" = Some (VFloat (2 # 5)) /\
    s !! "statistics_generated_at" = Some (VStr "2024-01-01T00:00:00").
Proof.
  exact (statistics_of_fields
           (<["content" := VList [scored_result; unscored_result]]>
              (<["totalElements" := VInt 2]> ∅))
           (<["content" := VList [scored_result]]>
              (<["totalElements" := VInt 1]> ∅))
           (<["content" := VList [unscored_result]]>
              (<["totalElements" := VInt 1]> ∅))
           [] (VFloat (2 # 5)) (VFloat 50) two_results_world []
           eq_refl eq_refl).
Defined.

(** ** Ways of passing arguments *)

Lemma paginated_positional_call_witness :
  call Get_passed_results [VInt 1; VInt 50] [] =
  call Get_passed_results [] [("page", VInt 1); ("size", VInt 50)].
Proof.
  apply (paginated_positional_call Get_passed_results (VInt 1) (VInt 50)).
  reflexivity.
Defined.

(** ** The dispatcher on success and on transport faults *)

(** X24. [_make_request] returns the response itself on every 2xx status
    (a 204 without body included: the body is not decoded here), and a
    connection or timeout failure comes out as it is raised by [httpx];
    either way exactly one request is added to the log, which carries the
    method, the JSON body, the query parameters and the timeout as they
    were passed. *)
Theorem make_request_outcomes
    (args : list value) (kwargs : list (string * value)) (env : locals)
    (w : world) (log : list request) :
  bind_arguments _make_request_sig args kwargs = Some env ->
  snd (_make_request args kwargs w log) = log ++ [request_of w env] /\
  req_method (request_of w env) = var env "method" /\
  req_json (request_of w env) = var env "json_data" /\
  req_params (request_of w env) = var env "params" /\
  req_timeout (request_of w env) = var env "timeout" /\
  (forall r : response,
     server w log (request_of w env) = Responded r ->
     200 <= status_code r <= 299 ->
     fst (_make_request args kwargs w log) = Return r) /\
  (forall k : fault,
     server w log (request_of w env) = Failed k ->
     fst (_make_request args kwargs w log) = Raise (RequestError k)).
Proof.
  intros Hbind. rewrite (make_request_spec _ _ _ _ _ Hbind).
  repeat split.
  - intros r Hresp Hstatus. rewrite Hresp. simpl.
    apply is_success_2xx in Hstatus. by rewrite Hstatus.
  - intros k Hfail. by rewrite Hfail.
Qed.

Lemma make_request_outcomes_witness :
  fst (_make_request [VStr "DELETE"; VStr "/quality/results/1"]
         [("timeout", VInt 5)] down_world []) =
    Raise (RequestError ConnectError).
Proof.
  destruct (make_request_outcomes
              [VStr "DELETE"; VStr "/quality/results/1"] [("timeout", VInt 5)]
              (make_request_env (VStr "DELETE") (VStr "/quality/results/1")
                 (VStr DEFAULT_BASE_URL) VNone VNone (VInt 5))
              down_world [] eq_refl)
    as (_ & _ & _ & _ & _ & _ & Hfault).
  by apply Hfault.
Defined.
